(** * scikits.cuda.fft: plans, dispatch on dtype pairs, validated execution

    A shallow embedding of [scikits/cuda/fft.py]: the [Plan] class
    ([__init__], [__del__]) and the functions [_fft], [fft] and [ifft].

    The Python code runs against three collaborators that it does not
    define: numpy (dtype objects, [np.sctypes], [np.cast]), pycuda
    ([GPUArray] objects and their division operator) and the [cufft]
    binding module (plan creation, destruction and the six execution
    primitives).  The enumerations of numpy and cufft are written out;
    the operations whose results the Python code never inspects are
    interfaces (type classes) over which every definition is
    parametric.  Effects are explicit: a computation is a function from
    a [World] to an outcome (a raised exception or a value) and the world
    it leaves behind, so that what a raising call has already done stays
    visible. *)

From Stdlib Require Import ZArith String List.
From stdpp Require Import base decidable option list gmap strings.

Local Open Scope Z_scope.

(** ** numpy *)

Module np.

(** The scalar types that can be given as [in_dtype] and [out_dtype]. *)
Inductive dtype :=
| float16 | float32 | float64 | float128
| complex64 | complex128 | complex256
| int8 | int16 | int32 | int64 | uint8 | bool_ | object_.

#[global] Instance dtype_eq_dec : EqDecision dtype.
Proof. solve_decision. Defined.

(** [np.sctypes['float']] and [np.sctypes['complex']]. *)
Definition sctypes_float : list dtype := [float16; float32; float64; float128].
Definition sctypes_complex : list dtype := [complex64; complex128; complex256].

End np.

(** ** pycuda.gpuarray *)

Module gpuarray.

(** The attributes of a [GPUArray] object that [fft.py] reads or
    assigns: the device allocation (by its address), the element count
    and the element type. *)
Record GPUArray := mkGPUArray {
  gpudata : Z;
  size : Z;
  dtype : np.dtype
}.

Definition set_gpudata (a : GPUArray) (p : Z) : GPUArray :=
  {| gpudata := p; size := size a; dtype := dtype a |}.

(** Device memory: the contents of every allocation, by address, and
    the allocator's next unused address. *)
Record device (elem : Type) := mkDevice {
  blocks : gmap Z (list elem);
  brk : Z
}.
Arguments mkDevice {elem} _ _.
Arguments blocks {elem} _.
Arguments brk {elem} _.

(** What the code asks of numpy and pycuda over array elements:
    [np.cast[d](s)], the scale [s] as a scalar of dtype [d], and
    [a / v], the array divided elementwise by the scalar [v], which
    returns an array object and may allocate or write device memory. *)
Class Layer := {
  elem : Type;
  np_cast : np.dtype -> Z -> elem;
  truediv : GPUArray -> elem -> device elem -> GPUArray * device elem
}.

End gpuarray.

(** ** cufft *)

Module cufft.

(** Transform kinds, [cufft.CUFFT_R2C] and the like. *)
Inductive fft_type :=
| CUFFT_R2C | CUFFT_C2R | CUFFT_C2C | CUFFT_D2Z | CUFFT_Z2D | CUFFT_Z2Z.

#[global] Instance fft_type_eq_dec : EqDecision fft_type.
Proof. solve_decision. Defined.

Inductive direction := CUFFT_FORWARD | CUFFT_INVERSE.

#[global] Instance direction_eq_dec : EqDecision direction.
Proof. solve_decision. Defined.

(** The execution primitives a plan can refer to. *)
Inductive exec :=
| cufftExecR2C | cufftExecC2R | cufftExecC2C
| cufftExecD2Z | cufftExecZ2D | cufftExecZ2Z.

#[global] Instance exec_eq_dec : EqDecision exec.
Proof. solve_decision. Defined.

(** Modelled from the spec: the [cufft] binding module, which
    [fft.py] imports and whose source is not part of the development.
    "Rank-specific plan-creation calls (1-D, 2-D, 3-D) each taking
    dimension(s) and a kind tag and returning an opaque handle or
    failure; a handle-destruction call; per-kind execution calls taking
    a handle and one or two device pointers (plus a direction flag only
    for the complex-to-complex kind)."  A creation call that returns
    [None] stands for the failure; the execution call receives
    [Some direction] when it is given the flag and [None] otherwise. *)
Class Engine (elem : Type) := {
  state : Type;
  cufftPlan1d : Z -> fft_type -> Z -> state -> option Z * state;
  cufftPlan2d : Z -> Z -> fft_type -> state -> option Z * state;
  cufftPlan3d : Z -> Z -> Z -> fft_type -> state -> option Z * state;
  cufftDestroy : Z -> state -> state;
  cufftExec : exec -> Z -> Z -> Z -> option direction ->
              state * gpuarray.device elem -> state * gpuarray.device elem
}.

End cufft.

(** ** Exceptions, calls and the world *)

(** [ValueError] is what [fft.py] raises itself; [cufftError] is a failed
    plan creation; [UnboundReference] is the outcome of using a reference
    that denotes no object, which no Python program can hold. *)
Inductive exn :=
| ValueError (msg : string)
| cufftError
| UnboundReference.

#[global] Instance exn_eq_dec : EqDecision exn.
Proof. solve_decision. Defined.

(** The names the specification gives to the errors of [fft.py]. *)
Definition UnsupportedTypeCombination : exn :=
  ValueError "unsupported input/output type combination".
Definition UnsupportedRank : exn :=
  ValueError "transforms of dimension > 3 not yet supported".
Definition PlanAllocationFailed : exn := cufftError.
Definition IllegalInPlaceTransform : exn :=
  ValueError "can only compute in-place transform of complex data".
Definition ForwardComplexToReal : exn :=
  ValueError "cannot compute forward complex -> real transform".
Definition InverseRealToComplex : exn :=
  ValueError "cannot compute inverse real -> complex transform".
Definition IllegalDirectionForKind (e : exn) : Prop :=
  e = ForwardComplexToReal \/ e = InverseRealToComplex.

(** Calls that leave [fft.py], in the order they are made. *)
Inductive call :=
| Call_cufftPlan1d (nx : Z) (ty : cufft.fft_type) (batch : Z)
| Call_cufftPlan2d (nx ny : Z) (ty : cufft.fft_type)
| Call_cufftPlan3d (nx ny nz : Z) (ty : cufft.fft_type)
| Call_cufftDestroy (handle : Z)
| Call_exec (f : cufft.exec) (handle idata odata : Z)
            (dir : option cufft.direction)
| Call_truediv (odata : Z) (d : np.dtype) (scale : Z).

Section Embedding.

Context {L : gpuarray.Layer} {E : cufft.Engine gpuarray.elem}.

(** The [GPUArray] objects alive, by reference; device memory; the
    engine's own state; the calls made so far. *)
Record World := mkWorld {
  arrays : gmap positive gpuarray.GPUArray;
  dev : gpuarray.device gpuarray.elem;
  eng : cufft.state;
  trace : list call
}.

Definition M (A : Type) : Type := World -> (exn + A) * World.

#[global] Instance M_ret : MRet M := fun A a w => (inr a, w).

#[global] Instance M_bind : MBind M := fun A B k m w =>
  match m w with
  | (inl e, w') => (inl e, w')
  | (inr a, w') => k a w'
  end.

Definition raise {A : Type} (e : exn) : M A := fun w => (inl e, w).

Definition when (b : bool) (m : M unit) : M unit :=
  if b then m else mret tt.

Definition log (c : call) (w : World) : World :=
  {| arrays := arrays w; dev := dev w; eng := eng w;
     trace := trace w ++ [c] |}.

(** Reading the object behind a reference. *)
Definition deref (r : positive) : M gpuarray.GPUArray := fun w =>
  match arrays w !! r with
  | Some a => (inr a, w)
  | None => (inl UnboundReference, w)
  end.

(** [r.gpudata = p] *)
Definition assign_gpudata (r : positive) (p : Z) : M unit := fun w =>
  match arrays w !! r with
  | Some a =>
      (inr tt, {| arrays := <[r := gpuarray.set_gpudata a p]> (arrays w);
                  dev := dev w; eng := eng w; trace := trace w |})
  | None => (inl UnboundReference, w)
  end.

(** The calls into [cufft], each recorded in the trace. *)
Definition created (c : call) (r : option Z * cufft.state) : M Z := fun w =>
  let w' := log c {| arrays := arrays w; dev := dev w; eng := r.2;
                     trace := trace w |} in
  match r.1 with
  | Some h => (inr h, w')
  | None => (inl cufftError, w')
  end.

Definition call_cufftPlan1d (nx : Z) (ty : cufft.fft_type) (batch : Z) : M Z :=
  fun w => created (Call_cufftPlan1d nx ty batch)
                   (cufft.cufftPlan1d nx ty batch (eng w)) w.

Definition call_cufftPlan2d (nx ny : Z) (ty : cufft.fft_type) : M Z :=
  fun w => created (Call_cufftPlan2d nx ny ty)
                   (cufft.cufftPlan2d nx ny ty (eng w)) w.

Definition call_cufftPlan3d (nx ny nz : Z) (ty : cufft.fft_type) : M Z :=
  fun w => created (Call_cufftPlan3d nx ny nz ty)
                   (cufft.cufftPlan3d nx ny nz ty (eng w)) w.

Definition call_cufftDestroy (h : Z) : M unit := fun w =>
  (inr tt, log (Call_cufftDestroy h)
             {| arrays := arrays w; dev := dev w;
                eng := cufft.cufftDestroy h (eng w); trace := trace w |}).

Definition call_exec (f : cufft.exec) (h idata odata : Z)
    (dir : option cufft.direction) : M unit := fun w =>
  let r := cufft.cufftExec f h idata odata dir (eng w, dev w) in
  (inr tt, log (Call_exec f h idata odata dir)
             {| arrays := arrays w; dev := r.2; eng := r.1;
                trace := trace w |}).

(** [a / np.cast[a.dtype](scale)] *)
Definition call_truediv (a : gpuarray.GPUArray) (scale : Z) :
    M gpuarray.GPUArray := fun w =>
  let r := gpuarray.truediv a (gpuarray.np_cast (gpuarray.dtype a) scale)
                            (dev w) in
  (inr r.1, log (Call_truediv (gpuarray.gpudata a) (gpuarray.dtype a) scale)
              {| arrays := arrays w; dev := r.2; eng := eng w;
                 trace := trace w |}).

End Embedding.

(** ** class Plan *)

(** The [shape] argument of [Plan]: a bare number, for which
    [np.isscalar] holds, or a sequence of dimensions. *)
Inductive shape_arg :=
| Scalar (n : Z)
| Sequence (dims : list Z).

Definition isscalar (s : shape_arg) : bool :=
  match s with
  | Scalar _ => true
  | Sequence _ => false
  end.

(** [(shape, )] when [np.isscalar(shape)], and [shape] otherwise: the
    value [__init__] stores in [self.shape]. *)
Definition self_shape (s : shape_arg) : list Z :=
  match s with
  | Scalar n => [n]
  | Sequence dims => dims
  end.

Module Plan.

(** The attributes of a constructed [Plan] object.  No method assigns
    them after [__init__], so a plan is passed by value. *)
Record t := mk {
  shape : list Z;
  in_dtype : np.dtype;
  out_dtype : np.dtype;
  fft_type : cufft.fft_type;
  fft_func : cufft.exec;
  handle : Z
}.

Section Methods.

Context {L : gpuarray.Layer} {E : cufft.Engine gpuarray.elem}.

(** "Determine type of transformation": the [if]/[elif] chain. *)
Definition determine_type (in_dtype out_dtype : np.dtype) :
    M (cufft.fft_type * cufft.exec) :=
  if decide (in_dtype = np.float32 /\ out_dtype = np.complex64) then
    mret (cufft.CUFFT_R2C, cufft.cufftExecR2C)
  else if decide (in_dtype = np.complex64 /\ out_dtype = np.float32) then
    mret (cufft.CUFFT_C2R, cufft.cufftExecC2R)
  else if decide (in_dtype = np.complex64 /\ out_dtype = np.complex64) then
    mret (cufft.CUFFT_C2C, cufft.cufftExecC2C)
  else if decide (in_dtype = np.float64 /\ out_dtype = np.complex128) then
    mret (cufft.CUFFT_D2Z, cufft.cufftExecD2Z)
  else if decide (in_dtype = np.complex128 /\ out_dtype = np.float64) then
    mret (cufft.CUFFT_Z2D, cufft.cufftExecZ2D)
  else if decide (in_dtype = np.complex128 /\ out_dtype = np.complex128) then
    mret (cufft.CUFFT_Z2Z, cufft.cufftExecZ2Z)
  else
    raise (ValueError "unsupported input/output type combination").

(** "Set up plan": the branch on [len(self.shape)]. *)
Definition set_up_plan (shape : list Z) (ty : cufft.fft_type) : M Z :=
  if decide (length shape = 1%nat) then
    call_cufftPlan1d (shape !!! 0%nat) ty 1
  else if decide (length shape = 2%nat) then
    call_cufftPlan2d (shape !!! 0%nat) (shape !!! 1%nat) ty
  else if decide (length shape = 3%nat) then
    call_cufftPlan3d (shape !!! 0%nat) (shape !!! 1%nat) (shape !!! 2%nat) ty
  else
    raise (ValueError "transforms of dimension > 3 not yet supported").

Definition __init__ (shape : shape_arg) (in_dtype out_dtype : np.dtype) :
    M t :=
  let self_shape := self_shape shape in
  k ← determine_type in_dtype out_dtype;
  h ← set_up_plan self_shape k.1;
  mret {| shape := self_shape; in_dtype := in_dtype;
          out_dtype := out_dtype; fft_type := k.1; fft_func := k.2;
          handle := h |}.

Definition __del__ (self : t) : M unit :=
  call_cufftDestroy (handle self).

End Methods.

End Plan.

(** ** _fft, fft, ifft *)

(** The value given for the [scale] parameter of [fft] and [ifft]. *)
Inductive pyobj :=
| PyBool (b : bool)
| PyInt (n : Z)
| PyNone.

(** [v == True] *)
Definition eq_True (v : pyobj) : bool :=
  match v with
  | PyBool b => b
  | PyInt n => bool_decide (n = 1)
  | PyNone => false
  end.

Section Transforms.

Context {L : gpuarray.Layer} {E : cufft.Engine gpuarray.elem}.

(** [plan.fft_type in [cufft.CUFFT_C2C, cufft.CUFFT_Z2Z]] *)
Definition complex_to_complex (plan : Plan.t) : bool :=
  bool_decide (Plan.fft_type plan ∈ [cufft.CUFFT_C2C; cufft.CUFFT_Z2Z]).

Definition _fft (x_gpu y_gpu : positive) (plan : Plan.t)
    (direction : cufft.direction) (scale : option Z) : M unit :=
  x ← deref x_gpu;
  y ← deref y_gpu;
  _ ← when (bool_decide (gpuarray.gpudata x = gpuarray.gpudata y)
            && negb (complex_to_complex plan))
        (raise (ValueError "can only compute in-place transform of complex data"));
  _ ← when (bool_decide (direction = cufft.CUFFT_FORWARD)
            && bool_decide (Plan.in_dtype plan ∈ np.sctypes_complex)
            && bool_decide (Plan.out_dtype plan ∈ np.sctypes_float))
        (raise (ValueError "cannot compute forward complex -> real transform"));
  _ ← when (bool_decide (direction = cufft.CUFFT_INVERSE)
            && bool_decide (Plan.in_dtype plan ∈ np.sctypes_float)
            && bool_decide (Plan.out_dtype plan ∈ np.sctypes_complex))
        (raise (ValueError "cannot compute inverse real -> complex transform"));
  _ ← (if complex_to_complex plan then
         call_exec (Plan.fft_func plan) (Plan.handle plan)
                   (gpuarray.gpudata x) (gpuarray.gpudata y) (Some direction)
       else
         call_exec (Plan.fft_func plan) (Plan.handle plan)
                   (gpuarray.gpudata x) (gpuarray.gpudata y) None);
  match scale with
  | Some s =>
      y ← deref y_gpu;
      q ← call_truediv y s;
      assign_gpudata y_gpu (gpuarray.gpudata q)
  | None => mret tt
  end.

Definition fft (x_gpu y_gpu : positive) (plan : Plan.t) (scale : pyobj) :
    M unit :=
  if eq_True scale then
    x ← deref x_gpu;
    _fft x_gpu y_gpu plan cufft.CUFFT_FORWARD (Some (gpuarray.size x))
  else
    _fft x_gpu y_gpu plan cufft.CUFFT_FORWARD None.

Definition ifft (x_gpu y_gpu : positive) (plan : Plan.t) (scale : pyobj) :
    M unit :=
  if eq_True scale then
    y ← deref y_gpu;
    _fft x_gpu y_gpu plan cufft.CUFFT_INVERSE (Some (gpuarray.size y))
  else
    _fft x_gpu y_gpu plan cufft.CUFFT_INVERSE None.

End Transforms.

(** ** The specification's tables *)

(** The dispatch table as the specification lists it: six dtype pairs,
    each with its transform kind and execution primitive. *)
Definition spec_dispatch_table :
    list ((np.dtype * np.dtype) * (cufft.fft_type * cufft.exec)) :=
  [ ((np.float32, np.complex64), (cufft.CUFFT_R2C, cufft.cufftExecR2C));
    ((np.complex64, np.float32), (cufft.CUFFT_C2R, cufft.cufftExecC2R));
    ((np.complex64, np.complex64), (cufft.CUFFT_C2C, cufft.cufftExecC2C));
    ((np.float64, np.complex128), (cufft.CUFFT_D2Z, cufft.cufftExecD2Z));
    ((np.complex128, np.float64), (cufft.CUFFT_Z2D, cufft.cufftExecZ2D));
    ((np.complex128, np.complex128), (cufft.CUFFT_Z2Z, cufft.cufftExecZ2Z)) ].

Fixpoint assoc {K V : Type} `{EqDecision K} (k : K) (l : list (K * V)) :
    option V :=
  match l with
  | [] => None
  | (k', v) :: l' => if decide (k = k') then Some v else assoc k l'
  end.

Definition spec_resolve (in_dtype out_dtype : np.dtype) :
    option (cufft.fft_type * cufft.exec) :=
  assoc (in_dtype, out_dtype) spec_dispatch_table.

(** The validation rules of execute as the specification orders them:
    each rule is whether it is violated and the error it reports; the
    first violated rule wins. *)
Definition spec_in_place_violated (xdata ydata : Z) (plan : Plan.t) : bool :=
  bool_decide (xdata = ydata)
  && negb (bool_decide (Plan.fft_type plan = cufft.CUFFT_C2C
                        \/ Plan.fft_type plan = cufft.CUFFT_Z2Z)).

Definition spec_forward_violated (plan : Plan.t) (d : cufft.direction) : bool :=
  bool_decide (d = cufft.CUFFT_FORWARD)
  && bool_decide (Plan.in_dtype plan ∈ np.sctypes_complex)
  && bool_decide (Plan.out_dtype plan ∈ np.sctypes_float).

Definition spec_inverse_violated (plan : Plan.t) (d : cufft.direction) : bool :=
  bool_decide (d = cufft.CUFFT_INVERSE)
  && bool_decide (Plan.in_dtype plan ∈ np.sctypes_float)
  && bool_decide (Plan.out_dtype plan ∈ np.sctypes_complex).

Definition spec_validation_rules (xdata ydata : Z) (plan : Plan.t)
    (d : cufft.direction) : list (bool * exn) :=
  [ (spec_in_place_violated xdata ydata plan, IllegalInPlaceTransform);
    (spec_forward_violated plan d, ForwardComplexToReal);
    (spec_inverse_violated plan d, InverseRealToComplex) ].

Fixpoint first_violated (rules : list (bool * exn)) : option exn :=
  match rules with
  | [] => None
  | (true, e) :: _ => Some e
  | (false, _) :: rules' => first_violated rules'
  end.

(** ** A concrete device layer and engine

    Instances of the two interfaces on which the embedding can be run.
    Element values stay symbolic: a value records how it was obtained,
    and no floating-point arithmetic is interpreted. *)

Module Concrete.

#[local] Unset Elimination Schemes.
Inductive value :=
| Host (k : Z)
| Cast (d : np.dtype) (s : Z)
| Quot (a b : value)
| Bin (f : cufft.exec) (dir : option cufft.direction) (k : nat)
      (input : list value).
#[local] Set Elimination Schemes.

(** pycuda's division of a [GPUArray] by a scalar: the result is a new
    array ([_new_like_me]) that a kernel fills with the quotients; the
    operand's memory is only read. *)
Definition truediv (a : gpuarray.GPUArray) (v : value)
    (d : gpuarray.device value) : gpuarray.GPUArray * gpuarray.device value :=
  let src := default [] (gpuarray.blocks d !! gpuarray.gpudata a) in
  let p := gpuarray.brk d in
  (gpuarray.set_gpudata a p,
   {| gpuarray.blocks := <[p := (fun e => Quot e v) <$> src]> (gpuarray.blocks d);
      gpuarray.brk := p + Z.max 1 (gpuarray.size a) |}).

Definition layer : gpuarray.Layer :=
  {| gpuarray.elem := value;
     gpuarray.np_cast := Cast;
     gpuarray.truediv := truediv |}.

(** An engine that numbers its plans from [next_handle], refuses
    dimensions that are not positive, and executes by overwriting the
    output allocation with the transform of the input allocation.  Its
    execution does not look the handle up: it is meant to be run on
    handles of plans that exist, and says nothing about other ones. *)
Record engine_state := mkEngine {
  plans : gmap Z (cufft.fft_type * list Z);
  next_handle : Z
}.

Definition create (ty : cufft.fft_type) (dims : list Z) (st : engine_state) :
    option Z * engine_state :=
  if bool_decide (Forall (fun n => 0 < n) dims) then
    (Some (next_handle st),
     {| plans := <[next_handle st := (ty, dims)]> (plans st);
        next_handle := next_handle st + 1 |})
  else (None, st).

Definition destroy (h : Z) (st : engine_state) : engine_state :=
  {| plans := delete h (plans st); next_handle := next_handle st |}.

Definition execute (f : cufft.exec) (h idata odata : Z)
    (dir : option cufft.direction)
    (s : engine_state * gpuarray.device value) :
    engine_state * gpuarray.device value :=
  let input := default [] (gpuarray.blocks s.2 !! idata) in
  match gpuarray.blocks s.2 !! odata with
  | Some out =>
      (s.1, {| gpuarray.blocks :=
                 <[odata := imap (fun k _ => Bin f dir k input) out]>
                   (gpuarray.blocks s.2);
               gpuarray.brk := gpuarray.brk s.2 |})
  | None => s
  end.

Definition engine : cufft.Engine value :=
  {| cufft.state := engine_state;
     cufft.cufftPlan1d := fun nx ty _ => create ty [nx];
     cufft.cufftPlan2d := fun nx ny ty => create ty [nx; ny];
     cufft.cufftPlan3d := fun nx ny nz ty => create ty [nx; ny; nz];
     cufft.cufftDestroy := destroy;
     cufft.cufftExec := execute |}.

Definition world : Type := @World layer engine.

(** A world with five array objects: a real array (1), two complex
    arrays that share one allocation (2 and 3), a complex array on its
    own (4), and a real array on the allocation of 2 and 3 (5). *)
Definition start : world :=
  @mkWorld layer engine
    {[ 1%positive := gpuarray.mkGPUArray 100 4 np.float32;
       2%positive := gpuarray.mkGPUArray 200 3 np.complex64;
       3%positive := gpuarray.mkGPUArray 200 3 np.complex64;
       4%positive := gpuarray.mkGPUArray 300 3 np.complex64;
       5%positive := gpuarray.mkGPUArray 200 4 np.float32 ]}
    {| gpuarray.blocks :=
         {[ 100 := [Host 0; Host 1; Host 2; Host 3];
            200 := [Host 10; Host 11; Host 12];
            300 := [Host 20; Host 21; Host 22] ]};
       gpuarray.brk := 400 |}
    {| plans := ∅; next_handle := 1 |}
    [].

(** The world after one plan of kind [ty] for [n] points was made in
    [start], and the three plans used below. *)
Definition planned (ty : cufft.fft_type) (n : Z) : world :=
  @mkWorld layer engine (arrays start) (dev start)
    {| plans := {[ 1 := (ty, [n]) ]}; next_handle := 2 |}
    [Call_cufftPlan1d n ty 1].

Definition plan_r2c : Plan.t :=
  Plan.mk [4] np.float32 np.complex64 cufft.CUFFT_R2C cufft.cufftExecR2C 1.

Definition plan_c2r : Plan.t :=
  Plan.mk [4] np.complex64 np.float32 cufft.CUFFT_C2R cufft.cufftExecC2R 1.

Definition plan_c2c : Plan.t :=
  Plan.mk [3] np.complex64 np.complex64 cufft.CUFFT_C2C cufft.cufftExecC2C 1.

(** The real signal of array 1 and its transform by [cufftExecR2C], as
    written over three elements. *)
Definition signal : list value := [Host 0; Host 1; Host 2; Host 3].

Definition spectrum : list value :=
  [ Bin cufft.cufftExecR2C None 0 signal;
    Bin cufft.cufftExecR2C None 1 signal;
    Bin cufft.cufftExecR2C None 2 signal ].

(** [_fft] of array 1 into array 2 with scale 4, on the plan
    [plan_r2c]. *)
Definition scaled_run : (exn + unit) * world :=
  @_fft layer engine 1 2 plan_r2c cufft.CUFFT_FORWARD (Some 4)
        (planned cufft.CUFFT_R2C 4).

(** The world [planned cufft.CUFFT_R2C 4] with one more array object, 6:
    a real array of no elements. *)
Definition with_empty_input : world :=
  @mkWorld layer engine
    (<[6%positive := gpuarray.mkGPUArray 50 0 np.float32]>
       (arrays (planned cufft.CUFFT_R2C 4)))
    (dev (planned cufft.CUFFT_R2C 4))
    (eng (planned cufft.CUFFT_R2C 4))
    (trace (planned cufft.CUFFT_R2C 4)).

End Concrete.


(** ** Worlds reached by the steps of [_fft] *)

Section Steps.

Context {L : gpuarray.Layer} {E : cufft.Engine gpuarray.elem}.

(** The call of [plan.fft_func] that [_fft] makes on the arrays [x] and
    [y]: with the direction for a complex-to-complex plan, without it
    otherwise. *)
Definition primitive_call (x y : gpuarray.GPUArray) (plan : Plan.t)
    (direction : cufft.direction) : call :=
  Call_exec (Plan.fft_func plan) (Plan.handle plan)
            (gpuarray.gpudata x) (gpuarray.gpudata y)
            (if complex_to_complex plan then Some direction else None).

(** The world after that call. *)
Definition transformed (x y : gpuarray.GPUArray) (plan : Plan.t)
    (direction : cufft.direction) (w : World) : World :=
  let r := cufft.cufftExec (Plan.fft_func plan) (Plan.handle plan)
             (gpuarray.gpudata x) (gpuarray.gpudata y)
             (if complex_to_complex plan then Some direction else None)
             (eng w, dev w) in
  {| arrays := arrays w; dev := r.2; eng := r.1;
     trace := trace w ++ [primitive_call x y plan direction] |}.

(** The world after the scaling statement, run in [w] on the array
    object [y] behind the reference [y_gpu]. *)
Definition rescaled (y_gpu : positive) (y : gpuarray.GPUArray) (s : Z)
    (w : World) : World :=
  let r := gpuarray.truediv y (gpuarray.np_cast (gpuarray.dtype y) s) (dev w) in
  {| arrays := <[y_gpu := gpuarray.set_gpudata y (gpuarray.gpudata r.1)]> (arrays w);
     dev := r.2; eng := eng w;
     trace := trace w ++ [Call_truediv (gpuarray.gpudata y) (gpuarray.dtype y) s] |}.

(** The three tests of [_fft], as written there. *)
Definition in_place_test (x y : gpuarray.GPUArray) (plan : Plan.t) : bool :=
  bool_decide (gpuarray.gpudata x = gpuarray.gpudata y)
  && negb (complex_to_complex plan).

Definition forward_test (plan : Plan.t) (direction : cufft.direction) : bool :=
  bool_decide (direction = cufft.CUFFT_FORWARD)
  && bool_decide (Plan.in_dtype plan ∈ np.sctypes_complex)
  && bool_decide (Plan.out_dtype plan ∈ np.sctypes_float).

Definition inverse_test (plan : Plan.t) (direction : cufft.direction) : bool :=
  bool_decide (direction = cufft.CUFFT_INVERSE)
  && bool_decide (Plan.in_dtype plan ∈ np.sctypes_float)
  && bool_decide (Plan.out_dtype plan ∈ np.sctypes_complex).

End Steps.

(** ** Kinds of calls *)

(** Whether a call is one of the three plan-creation calls. *)
Definition is_creation (c : call) : bool :=
  match c with
  | Call_cufftPlan1d _ _ _ => true
  | Call_cufftPlan2d _ _ _ => true
  | Call_cufftPlan3d _ _ _ _ => true
  | _ => false
  end.

(** Whether a call is a division of an array. *)
Definition is_truediv (c : call) : bool :=
  match c with
  | Call_truediv _ _ _ => true
  | _ => false
  end.

(** * Properties *)

Section Properties.

Context {L : gpuarray.Layer} {E : cufft.Engine gpuarray.elem}.

Implicit Types (w : World) (plan : Plan.t) (x y : gpuarray.GPUArray).

(** Reading through a live reference. *)
Lemma deref_live {A : Type} (r : positive) (a : gpuarray.GPUArray)
    (k : gpuarray.GPUArray -> M A) w :
  arrays w !! r = Some a ->
  (deref r ≫= k) w = k a w.
Proof. intros H. unfold mbind, M_bind, deref. rewrite H. reflexivity. Qed.

(** The outcome of [_fft] on live references, test by test. *)
Lemma _fft_outcome x_gpu y_gpu plan direction scale w x y :
  arrays w !! x_gpu = Some x ->
  arrays w !! y_gpu = Some y ->
  _fft x_gpu y_gpu plan direction scale w =
    if in_place_test x y plan then (inl IllegalInPlaceTransform, w)
    else if forward_test plan direction then (inl ForwardComplexToReal, w)
    else if inverse_test plan direction then (inl InverseRealToComplex, w)
    else (inr tt,
          match scale with
          | Some s => rescaled y_gpu y s (transformed x y plan direction w)
          | None => transformed x y plan direction w
          end).
Proof.
  intros Hx Hy.
  unfold _fft, mbind, M_bind, deref. rewrite Hx, Hy.
  fold (in_place_test x y plan) (forward_test plan direction)
       (inverse_test plan direction).
  destruct (in_place_test x y plan); [reflexivity|].
  destruct (forward_test plan direction); [reflexivity|].
  destruct (inverse_test plan direction); [reflexivity|].
  cbn [when mret M_ret].
  unfold transformed, primitive_call, call_exec, log.
  destruct (complex_to_complex plan), scale as [s|]; cbn; try reflexivity.
  all: unfold assign_gpudata, call_truediv, rescaled, log; simpl.
  all: rewrite Hy; simpl; rewrite Hy; reflexivity.
Qed.

(** Replace a run of [_fft] on live references by its outcome. *)
Ltac fft_outcome Hx Hy := rewrite (_fft_outcome _ _ _ _ _ _ _ _ Hx Hy).

(** The [if]/[elif] chain of [__init__] against the table. *)
Lemma determine_type_resolve i o w :
  Plan.determine_type i o w =
    match spec_resolve i o with
    | Some k => (inr k, w)
    | None => (inl UnsupportedTypeCombination, w)
    end.
Proof. destruct i, o; reflexivity. Qed.

Lemma init_unfold shape i o w :
  Plan.__init__ shape i o w =
    match spec_resolve i o with
    | Some k =>
        (h ← Plan.set_up_plan (self_shape shape) k.1;
         mret (Plan.mk (self_shape shape) i o k.1 k.2 h)) w
    | None => (inl UnsupportedTypeCombination, w)
    end.
Proof.
  unfold Plan.__init__. unfold mbind at 1. unfold M_bind at 1.
  rewrite determine_type_resolve.
  destruct (spec_resolve i o); reflexivity.
Qed.

(** What a constructed plan remembers. *)
Lemma init_inv shape i o w0 plan w1 :
  Plan.__init__ shape i o w0 = (inr plan, w1) ->
  Plan.shape plan = self_shape shape /\
  Plan.in_dtype plan = i /\ Plan.out_dtype plan = o /\
  spec_resolve i o = Some (Plan.fft_type plan, Plan.fft_func plan).
Proof.
  rewrite init_unfold.
  destruct (spec_resolve i o) as [[ty f]|]; [|discriminate].
  unfold mbind, M_bind; cbn.
  destruct (Plan.set_up_plan (self_shape shape) ty w0) as [[e|h] w']; [discriminate|].
  cbn. intros [= <- <-]. auto.
Qed.

(** The kinds of the table, by the classes of their dtypes. *)
Lemma resolve_kind i o ty f :
  spec_resolve i o = Some (ty, f) ->
  (bool_decide (ty ∈ [cufft.CUFFT_C2C; cufft.CUFFT_Z2Z])
     = bool_decide (i ∈ np.sctypes_complex) && bool_decide (o ∈ np.sctypes_complex))
  /\ (bool_decide (i ∈ np.sctypes_complex) = negb (bool_decide (i ∈ np.sctypes_float)))
  /\ (bool_decide (o ∈ np.sctypes_complex) = negb (bool_decide (o ∈ np.sctypes_float))).
Proof.
  destruct i, o; cbn; intros [= <- <-] || discriminate; vm_compute; auto.
Qed.

(** ** Plan construction *)

(** C1. For every dtype pair, [Plan.__init__] selects the transform kind
    and the execution primitive that the six-entry dispatch table gives
    for the pair and goes on to set up the engine plan with that kind;
    for a pair outside the table it raises the unsupported-combination
    error, whatever the shape, before any call to the engine.  A plan
    that was constructed carries the table's entry for its dtypes. *)
Theorem C1_dispatch_table (shape : shape_arg) (i o : np.dtype) w :
  Plan.__init__ shape i o w =
    match spec_resolve i o with
    | Some (ty, f) =>
        (h ← Plan.set_up_plan (self_shape shape) ty;
         mret (Plan.mk (self_shape shape) i o ty f h)) w
    | None => (inl UnsupportedTypeCombination, w)
    end
  /\ (forall plan w',
       Plan.__init__ shape i o w = (inr plan, w') ->
       spec_resolve i o = Some (Plan.fft_type plan, Plan.fft_func plan))
  /\ (spec_resolve i o = None <->
       ~ In (i, o) [ (np.float32, np.complex64); (np.complex64, np.float32);
                     (np.complex64, np.complex64); (np.float64, np.complex128);
                     (np.complex128, np.float64); (np.complex128, np.complex128) ]).
Proof.
  split; [|split].
  - rewrite init_unfold. destruct (spec_resolve i o) as [[ty f]|]; reflexivity.
  - intros plan w' H. apply init_inv in H. tauto.
  - destruct i, o; vm_compute; split; try discriminate; try tauto.
    all: intros _ H; repeat (destruct H as [H|H]; [discriminate H|]); exact H.
Qed.

(** C10. Constructing a plan with the bare scalar [n] as its shape gives
    the outcome and the world that constructing it with the 1-tuple
    [(n,)] gives: for a pair of the table the engine is asked for a
    1-dimensional plan of [n] points (batch 1) and the plan stores the
    shape [(n,)]. *)
Theorem C10_scalar_shape (n : Z) (i o : np.dtype) w :
  Plan.__init__ (Scalar n) i o w = Plan.__init__ (Sequence [n]) i o w
  /\ Plan.__init__ (Scalar n) i o w =
       match spec_resolve i o with
       | Some (ty, f) =>
           (h ← call_cufftPlan1d n ty 1; mret (Plan.mk [n] i o ty f h)) w
       | None => (inl UnsupportedTypeCombination, w)
       end.
Proof.
  split; [reflexivity|].
  rewrite init_unfold. destruct (spec_resolve i o) as [[ty f]|]; reflexivity.
Qed.

(** The rank test is reached only with a kind in hand. *)
Lemma set_up_plan_rank dims ty w :
  (length dims = 0 \/ 4 <= length dims)%nat ->
  Plan.set_up_plan dims ty w = (inl UnsupportedRank, w).
Proof.
  intros H. unfold Plan.set_up_plan.
  repeat (case_decide; [lia|]). reflexivity.
Qed.

(** C7, as the code has it. For a shape of length 0 or of length 4 or
    more, plan construction fails without any call to the engine: with
    the unsupported-rank error when the dtype pair is one of the table,
    and with the unsupported-combination error when it is not, since the
    dtype pair is examined first. *)
Theorem C7_rank_after_dispatch (dims : list Z) (i o : np.dtype) w :
  (length dims = 0 \/ 4 <= length dims)%nat ->
  Plan.__init__ (Sequence dims) i o w =
    (inl (match spec_resolve i o with
          | Some _ => UnsupportedRank
          | None => UnsupportedTypeCombination
          end), w).
Proof.
  intros H. rewrite init_unfold.
  destruct (spec_resolve i o) as [[ty f]|]; [|reflexivity].
  unfold mbind, M_bind. cbn. rewrite set_up_plan_rank by exact H. reflexivity.
Qed.

(** ** Execution *)

(** The tests of [_fft] are the rules of the specification. *)
Lemma tests_are_rules x y plan direction :
  in_place_test x y plan
    = spec_in_place_violated (gpuarray.gpudata x) (gpuarray.gpudata y) plan
  /\ forward_test plan direction = spec_forward_violated plan direction
  /\ inverse_test plan direction = spec_inverse_violated plan direction.
Proof.
  split; [|split; reflexivity].
  unfold in_place_test, spec_in_place_violated, complex_to_complex.
  f_equal. f_equal. destruct (Plan.fft_type plan); vm_compute; reflexivity.
Qed.

(** On a constructed plan the tests depend on the two dtypes alone. *)
Lemma init_tests shape i o w0 plan w1 :
  Plan.__init__ shape i o w0 = (inr plan, w1) ->
  complex_to_complex plan
    = bool_decide (i ∈ np.sctypes_complex) && bool_decide (o ∈ np.sctypes_complex)
  /\ (forall d, forward_test plan d
        = bool_decide (d = cufft.CUFFT_FORWARD)
          && bool_decide (i ∈ np.sctypes_complex) && bool_decide (o ∈ np.sctypes_float))
  /\ (forall d, inverse_test plan d
        = bool_decide (d = cufft.CUFFT_INVERSE)
          && bool_decide (i ∈ np.sctypes_float) && bool_decide (o ∈ np.sctypes_complex))
  /\ bool_decide (i ∈ np.sctypes_complex) = negb (bool_decide (i ∈ np.sctypes_float))
  /\ bool_decide (o ∈ np.sctypes_complex) = negb (bool_decide (o ∈ np.sctypes_float)).
Proof.
  intros H. apply init_inv in H as (_ & Hi & Ho & Hk).
  apply resolve_kind in Hk as (Hc & Hci & Hco).
  unfold complex_to_complex, forward_test, inverse_test.
  rewrite Hi, Ho. auto.
Qed.

(** C2. On a constructed plan, when the input and output arrays have the
    same device pointer: if the kind is not one of the two
    complex-to-complex kinds, [_fft] raises the in-place error and leaves
    the world as it was; if it is, [_fft] returns normally, having called
    the plan's primitive on the handle and the two pointers with the
    direction (and then the division, when a scale is given). *)
Theorem C2_in_place shape i o w0 plan w1 x_gpu y_gpu x y direction scale w :
  Plan.__init__ shape i o w0 = (inr plan, w1) ->
  arrays w !! x_gpu = Some x ->
  arrays w !! y_gpu = Some y ->
  gpuarray.gpudata x = gpuarray.gpudata y ->
  (Plan.fft_type plan <> cufft.CUFFT_C2C ->
   Plan.fft_type plan <> cufft.CUFFT_Z2Z ->
   _fft x_gpu y_gpu plan direction scale w = (inl IllegalInPlaceTransform, w))
  /\ (Plan.fft_type plan = cufft.CUFFT_C2C \/ Plan.fft_type plan = cufft.CUFFT_Z2Z ->
      exists w',
        _fft x_gpu y_gpu plan direction scale w = (inr tt, w')
        /\ trace w' =
             trace w
             ++ Call_exec (Plan.fft_func plan) (Plan.handle plan)
                          (gpuarray.gpudata x) (gpuarray.gpudata y) (Some direction)
             :: match scale with
                | Some s => [Call_truediv (gpuarray.gpudata y) (gpuarray.dtype y) s]
                | None => []
                end).
Proof.
  intros Hp Hx Hy Heq.
  fft_outcome Hx Hy.
  destruct (tests_are_rules x y plan direction) as (-> & _ & _).
  destruct (init_tests _ _ _ _ _ _ Hp) as (Hc & Hf & Hi & Hci & Hco).
  unfold spec_in_place_violated. rewrite (bool_decide_eq_true_2 _ Heq).
  split.
  - intros H1 H2. rewrite bool_decide_eq_false_2 by tauto. reflexivity.
  - intros H. rewrite (bool_decide_eq_true_2 _ H). cbn [andb negb].
    rewrite Hf, Hi.
    assert (Hcc : complex_to_complex plan = true).
    { unfold complex_to_complex. apply bool_decide_eq_true_2.
      destruct H as [-> | ->]; set_solver. }
    rewrite Hc in Hcc. apply andb_prop in Hcc as [Hic Hoc].
    rewrite Hci in Hic. rewrite Hco in Hoc.
    apply negb_true_iff in Hic, Hoc. rewrite Hic, Hoc.
    rewrite !andb_false_r.
    eexists; split; [reflexivity|].
    assert (Hcc : complex_to_complex plan = true).
    { rewrite Hc, Hci, Hco, Hic, Hoc. reflexivity. }
    destruct scale as [s|]; cbn; unfold primitive_call; rewrite Hcc.
    + rewrite <- app_assoc. reflexivity.
    + reflexivity.
Qed.

(** C3, as the code has it. On a constructed plan with a complex input
    dtype and a real output dtype, [_fft] in the forward direction always
    raises and leaves the world as it was: the forward complex-to-real
    error when the two device pointers differ, the in-place error when
    they are equal.  The same holds in the inverse direction on a plan
    with a real input dtype and a complex output dtype, with the inverse
    real-to-complex error. *)
Theorem C3_direction shape i o w0 plan w1 x_gpu y_gpu x y scale w :
  Plan.__init__ shape i o w0 = (inr plan, w1) ->
  arrays w !! x_gpu = Some x ->
  arrays w !! y_gpu = Some y ->
  (i ∈ np.sctypes_complex -> o ∈ np.sctypes_float ->
   _fft x_gpu y_gpu plan cufft.CUFFT_FORWARD scale w =
     (inl (if decide (gpuarray.gpudata x = gpuarray.gpudata y)
           then IllegalInPlaceTransform else ForwardComplexToReal), w))
  /\ (i ∈ np.sctypes_float -> o ∈ np.sctypes_complex ->
      _fft x_gpu y_gpu plan cufft.CUFFT_INVERSE scale w =
        (inl (if decide (gpuarray.gpudata x = gpuarray.gpudata y)
              then IllegalInPlaceTransform else InverseRealToComplex), w)).
Proof.
  intros Hp Hx Hy.
  destruct (init_tests _ _ _ _ _ _ Hp) as (Hc & Hf & Hi & Hci & Hco).
  split; intros Hin Hout.
  all: fft_outcome Hx Hy.
  all: unfold in_place_test; rewrite Hc, Hf, Hi.
  all: pose proof (bool_decide_eq_true_2 _ Hin) as Hin'.
  all: pose proof (bool_decide_eq_true_2 _ Hout) as Hout'.
  - rewrite Hout' in Hco. cbn in Hco.
    rewrite Hin', Hout', Hco. cbn.
    destruct (decide (gpuarray.gpudata x = gpuarray.gpudata y)) as [Hd|Hd];
      [rewrite (bool_decide_eq_true_2 _ Hd)
      |rewrite (bool_decide_eq_false_2 _ Hd)]; reflexivity.
  - rewrite Hin' in Hci. cbn in Hci.
    rewrite Hin', Hout', Hci. cbn.
    destruct (decide (gpuarray.gpudata x = gpuarray.gpudata y)) as [Hd|Hd];
      [rewrite (bool_decide_eq_true_2 _ Hd)
      |rewrite (bool_decide_eq_false_2 _ Hd)]; reflexivity.
Qed.

(** C4. [_fft] applies the validation rules in the order in-place,
    forward complex-to-real, inverse real-to-complex: it raises the error
    of the first violated rule, leaving the world as it was, and returns
    normally when no rule is violated.  In particular, when the in-place
    rule and a direction rule are both violated, the error is the
    in-place one, which is not a direction error. *)
Theorem C4_first_violated_rule x_gpu y_gpu plan direction scale w x y :
  arrays w !! x_gpu = Some x ->
  arrays w !! y_gpu = Some y ->
  match first_violated
          (spec_validation_rules (gpuarray.gpudata x) (gpuarray.gpudata y)
                                 plan direction) with
  | Some e => _fft x_gpu y_gpu plan direction scale w = (inl e, w)
  | None => exists w', _fft x_gpu y_gpu plan direction scale w = (inr tt, w')
  end
  /\ (spec_in_place_violated (gpuarray.gpudata x) (gpuarray.gpudata y) plan = true ->
      spec_forward_violated plan direction || spec_inverse_violated plan direction = true ->
      _fft x_gpu y_gpu plan direction scale w = (inl IllegalInPlaceTransform, w)
      /\ ~ IllegalDirectionForKind IllegalInPlaceTransform).
Proof.
  intros Hx Hy.
  fft_outcome Hx Hy.
  destruct (tests_are_rules x y plan direction) as (-> & -> & ->).
  unfold spec_validation_rules, first_violated.
  split.
  - destruct (spec_in_place_violated _ _ _); [reflexivity|].
    destruct (spec_forward_violated _ _); [reflexivity|].
    destruct (spec_inverse_violated _ _); [reflexivity|].
    eexists; reflexivity.
  - intros -> _. split; [reflexivity|].
    intros [H|H]; discriminate H.
Qed.

(** C5. [fft], given a boolean for [scale], is [_fft] in the forward
    direction, with the element count of the input array as the scale
    when the boolean is true and with no scale when it is false; [ifft]
    is [_fft] in the inverse direction, with the element count of the
    output array as the scale when the boolean is true and with no scale
    when it is false. *)
Theorem C5_entry_points x_gpu y_gpu plan (normalize : bool) w x y :
  arrays w !! x_gpu = Some x ->
  arrays w !! y_gpu = Some y ->
  fft x_gpu y_gpu plan (PyBool normalize) w =
    _fft x_gpu y_gpu plan cufft.CUFFT_FORWARD
         (if normalize then Some (gpuarray.size x) else None) w
  /\ ifft x_gpu y_gpu plan (PyBool normalize) w =
       _fft x_gpu y_gpu plan cufft.CUFFT_INVERSE
            (if normalize then Some (gpuarray.size y) else None) w.
Proof.
  intros Hx Hy. unfold fft, ifft.
  destruct normalize; cbn [eq_True]; [|split; reflexivity].
  rewrite (deref_live _ _ _ _ Hx), (deref_live _ _ _ _ Hy).
  split; reflexivity.
Qed.

(** C6, as the code has it. When a scale is given, then after the
    transform primitive has returned, [_fft] asks the device layer for
    the quotient of the output array by the scale cast into the output
    array's own dtype, and rebinds the device pointer of the output
    array object to the pointer of the array that the division returned;
    device memory is then what the division left.  When no scale is
    given, no division is made and the array objects are as before. *)
Theorem C6_scaling x_gpu y_gpu plan direction w x y w1 :
  arrays w !! x_gpu = Some x ->
  arrays w !! y_gpu = Some y ->
  _fft x_gpu y_gpu plan direction None w = (inr tt, w1) ->
  (arrays w1 = arrays w
   /\ trace w1 = trace w ++ [primitive_call x y plan direction])
  /\ forall s,
       let q := gpuarray.truediv y (gpuarray.np_cast (gpuarray.dtype y) s) (dev w1) in
       exists w2,
         _fft x_gpu y_gpu plan direction (Some s) w = (inr tt, w2)
         /\ arrays w2 = <[y_gpu := gpuarray.set_gpudata y (gpuarray.gpudata q.1)]> (arrays w)
         /\ dev w2 = q.2
         /\ eng w2 = eng w1
         /\ trace w2 = trace w1 ++ [Call_truediv (gpuarray.gpudata y) (gpuarray.dtype y) s].
Proof.
  intros Hx Hy H.
  rewrite (_fft_outcome _ _ _ _ _ _ _ _ Hx Hy) in H.
  destruct (in_place_test x y plan) eqn:T1; [discriminate|].
  destruct (forward_test plan direction) eqn:T2; [discriminate|].
  destruct (inverse_test plan direction) eqn:T3; [discriminate|].
  injection H as <-. split; [split; reflexivity|].
  intros s q. eexists.
  fft_outcome Hx Hy; rewrite T1, T2, T3.
  split; [reflexivity|]. repeat split.
Qed.

(** C8. Every call of [_fft] on live arrays either returns normally,
    having called the transform primitive and then, when a scale is
    given, the division, or raises the in-place error or a direction
    error with the world exactly as it was before the call: no call was
    made to the engine and device memory is untouched. *)
Theorem C8_all_or_nothing x_gpu y_gpu plan direction scale w x y :
  arrays w !! x_gpu = Some x ->
  arrays w !! y_gpu = Some y ->
  (exists w',
     _fft x_gpu y_gpu plan direction scale w = (inr tt, w')
     /\ trace w' =
          trace w
          ++ primitive_call x y plan direction
          :: match scale with
             | Some s => [Call_truediv (gpuarray.gpudata y) (gpuarray.dtype y) s]
             | None => []
             end)
  \/ (exists e,
        _fft x_gpu y_gpu plan direction scale w = (inl e, w)
        /\ (e = IllegalInPlaceTransform \/ IllegalDirectionForKind e)).
Proof.
  intros Hx Hy.
  fft_outcome Hx Hy.
  unfold IllegalDirectionForKind.
  destruct (in_place_test x y plan); [right; eauto|].
  destruct (forward_test plan direction); [right; eauto|].
  destruct (inverse_test plan direction); [right; eauto|].
  left. eexists; split; [reflexivity|].
  destruct scale as [s|]; cbn; [|reflexivity].
  rewrite <- app_assoc. reflexivity.
Qed.

End Properties.

(** * The properties on the concrete layer and engine *)

Section Instances.

#[local] Existing Instance Concrete.layer.
#[local] Existing Instance Concrete.engine.

(** On the concrete engine each of the six pairs of the table
    constructs a plan of the table's kind and primitive. *)
Example six_pairs_construct :
  Forall (fun e : (np.dtype * np.dtype) * (cufft.fft_type * cufft.exec) =>
            (Plan.__init__ (Sequence [8; 8]) e.1.1 e.1.2 Concrete.start).1
              = inr (Plan.mk [8; 8] e.1.1 e.1.2 e.2.1 e.2.2 1))
         spec_dispatch_table.
Proof. repeat constructor. Qed.

Lemma C7_rank_after_dispatch_witness :
  Plan.__init__ (Sequence []) np.float64 np.complex128 Concrete.start =
    (inl UnsupportedRank, Concrete.start).
Proof.
  apply (C7_rank_after_dispatch [] np.float64 np.complex128 Concrete.start).
  left. reflexivity.
Defined.

(** C7 fails as stated: a shape of four dimensions with the unsupported
    pair (float32, complex128) is refused with the
    unsupported-combination error, not with the unsupported-rank one. *)
Lemma C7_counterexample :
  Plan.__init__ (Sequence [2; 2; 2; 2]) np.float32 np.complex128 Concrete.start =
    (inl UnsupportedTypeCombination, Concrete.start)
  /\ UnsupportedTypeCombination <> UnsupportedRank.
Proof. split; [reflexivity|discriminate]. Qed.

Lemma C2_in_place_witness :
  _fft 5 2 Concrete.plan_r2c cufft.CUFFT_FORWARD None
       (Concrete.planned cufft.CUFFT_R2C 4)
    = (inl IllegalInPlaceTransform, Concrete.planned cufft.CUFFT_R2C 4)
  /\ exists w',
       _fft 2 3 Concrete.plan_c2c cufft.CUFFT_INVERSE None
            (Concrete.planned cufft.CUFFT_C2C 3) = (inr tt, w')
       /\ trace w' =
            [ Call_cufftPlan1d 3 cufft.CUFFT_C2C 1;
              Call_exec cufft.cufftExecC2C 1 200 200 (Some cufft.CUFFT_INVERSE) ].
Proof.
  split.
  - refine (proj1 (C2_in_place (Scalar 4) np.float32 np.complex64 Concrete.start
                     Concrete.plan_r2c (Concrete.planned cufft.CUFFT_R2C 4)
                     5 2 (gpuarray.mkGPUArray 200 4 np.float32)
                     (gpuarray.mkGPUArray 200 3 np.complex64)
                     cufft.CUFFT_FORWARD None _ _ _ _ _) _ _);
      try reflexivity; discriminate.
  - refine (proj2 (C2_in_place (Scalar 3) np.complex64 np.complex64 Concrete.start
                     Concrete.plan_c2c (Concrete.planned cufft.CUFFT_C2C 3)
                     2 3 (gpuarray.mkGPUArray 200 3 np.complex64)
                     (gpuarray.mkGPUArray 200 3 np.complex64)
                     cufft.CUFFT_INVERSE None _ _ _ _ _) _);
      try reflexivity.
    left. reflexivity.
Defined.

Lemma C3_direction_witness :
  _fft 2 1 Concrete.plan_c2r cufft.CUFFT_FORWARD None
       (Concrete.planned cufft.CUFFT_C2R 4)
    = (inl ForwardComplexToReal, Concrete.planned cufft.CUFFT_C2R 4).
Proof.
  refine (proj1 (C3_direction (Scalar 4) np.complex64 np.float32 Concrete.start
                   Concrete.plan_c2r (Concrete.planned cufft.CUFFT_C2R 4)
                   2 1 (gpuarray.mkGPUArray 200 3 np.complex64)
                   (gpuarray.mkGPUArray 100 4 np.float32)
                   None _ _ _ _) _ _);
    try reflexivity.
  - unfold np.sctypes_complex. set_solver.
  - unfold np.sctypes_float. set_solver.
Defined.

(** C3 fails as stated: the plan made for (complex64, float32) has a
    complex input dtype and a real output dtype, and [_fft] in the
    forward direction on two arrays that share their device pointer
    raises the in-place error, which is not a direction error. *)
Lemma C3_counterexample :
  Plan.__init__ (Scalar 4) np.complex64 np.float32 Concrete.start
    = (inr Concrete.plan_c2r, Concrete.planned cufft.CUFFT_C2R 4)
  /\ _fft 2 5 Concrete.plan_c2r cufft.CUFFT_FORWARD None
          (Concrete.planned cufft.CUFFT_C2R 4)
       = (inl IllegalInPlaceTransform, Concrete.planned cufft.CUFFT_C2R 4)
  /\ ~ IllegalDirectionForKind IllegalInPlaceTransform.
Proof.
  split; [reflexivity|].
  split; [reflexivity|].
  intros [H|H]; discriminate H.
Qed.

Lemma C4_first_violated_rule_witness :
  _fft 2 5 Concrete.plan_c2r cufft.CUFFT_FORWARD (Some 4)
       (Concrete.planned cufft.CUFFT_C2R 4)
    = (inl IllegalInPlaceTransform, Concrete.planned cufft.CUFFT_C2R 4)
  /\ ~ IllegalDirectionForKind IllegalInPlaceTransform.
Proof.
  refine (proj2 (C4_first_violated_rule 2 5 Concrete.plan_c2r cufft.CUFFT_FORWARD
                   (Some 4) (Concrete.planned cufft.CUFFT_C2R 4)
                   (gpuarray.mkGPUArray 200 3 np.complex64)
                   (gpuarray.mkGPUArray 200 4 np.float32) _ _) _ _);
    reflexivity.
Defined.

Lemma C5_entry_points_witness :
  fft 1 2 Concrete.plan_r2c (PyBool true) (Concrete.planned cufft.CUFFT_R2C 4)
    = _fft 1 2 Concrete.plan_r2c cufft.CUFFT_FORWARD (Some 4)
           (Concrete.planned cufft.CUFFT_R2C 4)
  /\ ifft 2 1 Concrete.plan_c2r (PyBool true) (Concrete.planned cufft.CUFFT_C2R 4)
       = _fft 2 1 Concrete.plan_c2r cufft.CUFFT_INVERSE (Some 4)
              (Concrete.planned cufft.CUFFT_C2R 4).
Proof.
  split.
  - refine (proj1 (C5_entry_points 1 2 Concrete.plan_r2c true
                     (Concrete.planned cufft.CUFFT_R2C 4)
                     (gpuarray.mkGPUArray 100 4 np.float32)
                     (gpuarray.mkGPUArray 200 3 np.complex64) _ _));
      reflexivity.
  - refine (proj2 (C5_entry_points 2 1 Concrete.plan_c2r true
                     (Concrete.planned cufft.CUFFT_C2R 4)
                     (gpuarray.mkGPUArray 200 3 np.complex64)
                     (gpuarray.mkGPUArray 100 4 np.float32) _ _));
      reflexivity.
Defined.

Lemma C6_scaling_witness :
  exists w2,
    Concrete.scaled_run = (inr tt, w2)
    /\ arrays w2 =
         <[2%positive := gpuarray.mkGPUArray 400 3 np.complex64]>
           (arrays Concrete.start)
    /\ trace w2 =
         [ Call_cufftPlan1d 4 cufft.CUFFT_R2C 1;
           Call_exec cufft.cufftExecR2C 1 100 200 None;
           Call_truediv 200 np.complex64 4 ].
Proof.
  destruct (C6_scaling 1 2 Concrete.plan_r2c cufft.CUFFT_FORWARD
              (Concrete.planned cufft.CUFFT_R2C 4)
              (gpuarray.mkGPUArray 100 4 np.float32)
              (gpuarray.mkGPUArray 200 3 np.complex64)
              (_fft 1 2 Concrete.plan_r2c cufft.CUFFT_FORWARD None
                    (Concrete.planned cufft.CUFFT_R2C 4)).2
              eq_refl eq_refl eq_refl) as [[_ Ht] H].
  destruct (H 4) as (w2 & Hr & Ha & _ & _ & Htr).
  exists w2. split; [exact Hr|]. split; [exact Ha|].
  rewrite Htr, Ht. reflexivity.
Defined.

(** C6 fails as stated: after [_fft] with scale 4 the output array
    object points at a new allocation, 400, which holds the quotients by
    the scale cast to complex64, while the allocation it pointed at, 200,
    holds the transform as the primitive wrote it, undivided. *)
Lemma C6_counterexample :
  arrays (Concrete.planned cufft.CUFFT_R2C 4) !! 2%positive
    = Some (gpuarray.mkGPUArray 200 3 np.complex64)
  /\ Concrete.scaled_run.1 = inr tt
  /\ arrays Concrete.scaled_run.2 !! 2%positive
       = Some (gpuarray.mkGPUArray 400 3 np.complex64)
  /\ gpuarray.blocks (dev Concrete.scaled_run.2) !! 200 = Some Concrete.spectrum
  /\ gpuarray.blocks (dev Concrete.scaled_run.2) !! 400
       = Some ((fun e => Concrete.Quot e (Concrete.Cast np.complex64 4))
                 <$> Concrete.spectrum).
Proof. repeat split; reflexivity. Qed.

Lemma C8_all_or_nothing_witness :
  (exists w',
     _fft 1 2 Concrete.plan_r2c cufft.CUFFT_INVERSE (Some 4)
          (Concrete.planned cufft.CUFFT_R2C 4) = (inr tt, w')
     /\ trace w' =
          trace (Concrete.planned cufft.CUFFT_R2C 4)
          ++ [ Call_exec cufft.cufftExecR2C 1 100 200 None;
               Call_truediv 200 np.complex64 4 ])
  \/ (exists e,
        _fft 1 2 Concrete.plan_r2c cufft.CUFFT_INVERSE (Some 4)
             (Concrete.planned cufft.CUFFT_R2C 4)
          = (inl e, Concrete.planned cufft.CUFFT_R2C 4)
        /\ (e = IllegalInPlaceTransform \/ IllegalDirectionForKind e)).
Proof.
  exact (C8_all_or_nothing 1 2 Concrete.plan_r2c cufft.CUFFT_INVERSE (Some 4)
           (Concrete.planned cufft.CUFFT_R2C 4)
           (gpuarray.mkGPUArray 100 4 np.float32)
           (gpuarray.mkGPUArray 200 3 np.complex64) eq_refl eq_refl).
Defined.

End Instances.

(** * Further properties of the code *)

Section Further.

Context {L : gpuarray.Layer} {E : cufft.Engine gpuarray.elem}.

Implicit Types (w : World) (plan : Plan.t) (x y : gpuarray.GPUArray).

(** ** Plan construction and disposal *)

(** X1. For a dtype pair of the table, [Plan.__init__] on a shape of one,
    two or three dimensions makes the creation call of that rank, with
    the dimensions in the order given (and batch 1 for rank one), at
    construction time.  It returns a plan holding the handle when the
    engine returns one and raises [cufftError] when the engine refuses;
    either way the engine state is the one the call left.  The
    dimensions are passed on as given, whatever their sign. *)
Theorem init_rank_dispatch i o ty f w :
  spec_resolve i o = Some (ty, f) ->
  (forall nx,
     let r := cufft.cufftPlan1d nx ty 1 (eng w) in
     Plan.__init__ (Sequence [nx]) i o w =
       (match r.1 with
        | Some h => inr (Plan.mk [nx] i o ty f h)
        | None => inl cufftError
        end,
        mkWorld (arrays w) (dev w) r.2
                (trace w ++ [Call_cufftPlan1d nx ty 1])))
  /\ (forall nx ny,
        let r := cufft.cufftPlan2d nx ny ty (eng w) in
        Plan.__init__ (Sequence [nx; ny]) i o w =
          (match r.1 with
           | Some h => inr (Plan.mk [nx; ny] i o ty f h)
           | None => inl cufftError
           end,
           mkWorld (arrays w) (dev w) r.2
                   (trace w ++ [Call_cufftPlan2d nx ny ty])))
  /\ (forall nx ny nz,
        let r := cufft.cufftPlan3d nx ny nz ty (eng w) in
        Plan.__init__ (Sequence [nx; ny; nz]) i o w =
          (match r.1 with
           | Some h => inr (Plan.mk [nx; ny; nz] i o ty f h)
           | None => inl cufftError
           end,
           mkWorld (arrays w) (dev w) r.2
                   (trace w ++ [Call_cufftPlan3d nx ny nz ty]))).
Proof.
  intros H. repeat split; intros; subst r; rewrite init_unfold, H.
  all: unfold mbind, M_bind, Plan.set_up_plan; cbn [fst snd self_shape].
  all: repeat (case_decide; try (exfalso; cbn in *; lia)).
  all: unfold call_cufftPlan1d, call_cufftPlan2d, call_cufftPlan3d, created, log.
  all: cbn.
  - destruct (cufft.cufftPlan1d nx ty 1 (eng w)) as [[h|] st]; reflexivity.
  - destruct (cufft.cufftPlan2d nx ny ty (eng w)) as [[h|] st]; reflexivity.
  - destruct (cufft.cufftPlan3d nx ny nz ty (eng w)) as [[h|] st]; reflexivity.
Qed.

(** The steps of [set_up_plan], whatever the shape. *)
Lemma set_up_plan_frame dims ty w :
  let r := Plan.set_up_plan dims ty w in
  arrays r.2 = arrays w /\ dev r.2 = dev w
  /\ ((r = (inl UnsupportedRank, w) /\ ~ (1 <= length dims <= 3)%nat)
      \/ ((1 <= length dims <= 3)%nat
          /\ exists c, is_creation c = true /\ trace r.2 = trace w ++ [c])).
Proof.
  cbv zeta. unfold Plan.set_up_plan.
  repeat case_decide.
  4: { split; [reflexivity|]. split; [reflexivity|].
       left. split; [reflexivity|lia]. }
  all: unfold call_cufftPlan1d, call_cufftPlan2d, call_cufftPlan3d, created, log.
  all: match goal with
       | |- context [match ?r.1 with _ => _ end] => destruct r.1
       end; cbn.
  all: split; [reflexivity|]; split; [reflexivity|].
  all: right; split; [lia|]; eexists; split; [|reflexivity]; reflexivity.
Qed.

(** X2. [Plan.__init__] never touches the array objects or device
    memory.  It either makes no call at all, leaves the engine as it was
    and raises a [ValueError], or makes exactly one call, which is a plan
    creation. *)
Theorem init_frame shape i o w :
  let r := Plan.__init__ shape i o w in
  arrays r.2 = arrays w /\ dev r.2 = dev w
  /\ ((r.2 = w /\ exists msg, r.1 = inl (ValueError msg))
      \/ exists c, is_creation c = true /\ trace r.2 = trace w ++ [c]).
Proof.
  cbv zeta. rewrite init_unfold.
  destruct (spec_resolve i o) as [[ty f]|].
  2: { repeat split. left. split; [reflexivity|]. eexists; reflexivity. }
  unfold mbind, M_bind. cbn [fst snd].
  destruct (set_up_plan_frame (self_shape shape) ty w) as (Ha & Hd & Hc).
  destruct (Plan.set_up_plan (self_shape shape) ty w) as [[e|h] w'] eqn:Hs;
    cbn in *; repeat split; try assumption.
  - destruct Hc as [[[= -> ->] _]|(_ & c & Hc & Ht)].
    + left. split; [reflexivity|]. eexists; reflexivity.
    + right. eauto.
  - destruct Hc as [[[=] _]|(_ & c & Hc & Ht)]. right. eauto.
Qed.

(** X3. Every constructed plan has one, two or three dimensions, stores
    the shape and the two dtypes it was given, and its kind and
    primitive are the table's entry for the two dtypes. *)
Theorem init_plan_invariant shape i o w plan w1 :
  Plan.__init__ shape i o w = (inr plan, w1) ->
  (1 <= length (Plan.shape plan) <= 3)%nat
  /\ Plan.shape plan = self_shape shape
  /\ Plan.in_dtype plan = i /\ Plan.out_dtype plan = o
  /\ In ((i, o), (Plan.fft_type plan, Plan.fft_func plan)) spec_dispatch_table.
Proof.
  intros H. destruct (init_inv _ _ _ _ _ _ H) as (Hs & Hi & Ho & Hk).
  repeat split; try assumption.
  - rewrite init_unfold, Hk in H. unfold mbind, M_bind in H. cbn in H.
    destruct (set_up_plan_frame (self_shape shape) (Plan.fft_type plan) w)
      as (_ & _ & Hc).
    destruct (Plan.set_up_plan (self_shape shape) (Plan.fft_type plan) w)
      as [[e|h] w'] eqn:Hsu; [discriminate|].
    rewrite Hs. destruct Hc as [[[=] _]|[Hl _]]. lia.
  - rewrite init_unfold, Hk in H. unfold mbind, M_bind in H. cbn in H.
    destruct (set_up_plan_frame (self_shape shape) (Plan.fft_type plan) w)
      as (_ & _ & Hc).
    destruct (Plan.set_up_plan (self_shape shape) (Plan.fft_type plan) w)
      as [[e|h] w'] eqn:Hsu; [discriminate|].
    rewrite Hs. destruct Hc as [[[=] _]|[Hl _]]. lia.
  - clear H. destruct i, o; cbn in Hk; try discriminate Hk;
      injection Hk as <- <-; cbn; tauto.
Qed.

(** X4. Construction followed by disposal makes exactly two calls, a
    plan creation and then the destruction of the handle that the plan
    stores, and leaves the array objects and device memory as they
    were. *)
Theorem init_del_pairing shape i o w plan w1 :
  Plan.__init__ shape i o w = (inr plan, w1) ->
  exists c,
    is_creation c = true
    /\ trace w1 = trace w ++ [c]
    /\ Plan.__del__ plan w1 =
         (inr tt,
          mkWorld (arrays w) (dev w)
                  (cufft.cufftDestroy (Plan.handle plan) (eng w1))
                  (trace w ++ [c; Call_cufftDestroy (Plan.handle plan)])).
Proof.
  intros H.
  pose proof (init_frame shape i o w) as F. cbv zeta in F. rewrite H in F.
  cbn in F. destruct F as (Ha & Hd & [[_ [msg [=]]]|(c & Hc & Ht)]).
  exists c. repeat split; try assumption.
  unfold Plan.__del__, call_cufftDestroy, log. cbn.
  rewrite Ha, Hd, Ht, <- app_assoc. reflexivity.
Qed.

(** ** Execution *)

(** The six plans that [__init__] can construct, by their fields. *)
Lemma init_six shape i o w0 plan w1 :
  Plan.__init__ shape i o w0 = (inr plan, w1) ->
  exists sh h,
    plan = Plan.mk sh i o (Plan.fft_type plan) (Plan.fft_func plan) h
    /\ spec_resolve i o = Some (Plan.fft_type plan, Plan.fft_func plan).
Proof.
  intros H. destruct (init_inv _ _ _ _ _ _ H) as (_ & Hi & Ho & Hk).
  destruct plan as [sh pi po ty f h]. cbn in *. subst. eauto.
Qed.

(** Deciding the pointer comparison of the in-place test. *)
Ltac pointer_cases x y :=
  destruct (decide (gpuarray.gpudata x = gpuarray.gpudata y)) as [Hp|Hp];
  [rewrite (bool_decide_eq_true_2 _ Hp) | rewrite (bool_decide_eq_false_2 _ Hp)].

(** X5. On a constructed plan, [_fft] returns normally exactly in these
    cases: the kind is complex-to-complex (any direction, aliased or
    not); or the two device pointers differ and either the kind is
    real-to-complex and the direction is forward, or the kind is
    complex-to-real and the direction is inverse. *)
Theorem fft_succeeds_iff shape i o w0 plan w1 x_gpu y_gpu x y direction scale w :
  Plan.__init__ shape i o w0 = (inr plan, w1) ->
  arrays w !! x_gpu = Some x ->
  arrays w !! y_gpu = Some y ->
  (_fft x_gpu y_gpu plan direction scale w).1 = inr tt
  <-> (Plan.fft_type plan = cufft.CUFFT_C2C \/ Plan.fft_type plan = cufft.CUFFT_Z2Z)
      \/ (gpuarray.gpudata x <> gpuarray.gpudata y
          /\ (((Plan.fft_type plan = cufft.CUFFT_R2C \/ Plan.fft_type plan = cufft.CUFFT_D2Z)
               /\ direction = cufft.CUFFT_FORWARD)
              \/ ((Plan.fft_type plan = cufft.CUFFT_C2R \/ Plan.fft_type plan = cufft.CUFFT_Z2D)
                  /\ direction = cufft.CUFFT_INVERSE))).
Proof.
  intros Hinit Hx Hy.
  rewrite (_fft_outcome _ _ _ _ _ _ _ _ Hx Hy).
  destruct (init_six _ _ _ _ _ _ Hinit) as (sh & h & -> & Hk). cbn in Hk |- *.
  unfold in_place_test, forward_test, inverse_test, complex_to_complex.
  cbn [Plan.fft_type Plan.in_dtype Plan.out_dtype].
  destruct i, o; cbn in Hk; try discriminate Hk; injection Hk as <- <-.
  all: pointer_cases x y; destruct direction; cbn.
  all: split; [try discriminate; intros _|try reflexivity; intros G; exfalso];
       try tauto; try (right; split; [exact Hp|]; tauto).
  all: destruct G as [[G|G]|[G1 [[[G|G] G2]|[[G|G] G2]]]];
       try discriminate G; try discriminate G2; try (exact (G1 Hp)).
Qed.

(** X6. On a constructed plan, when [_fft] returns normally its first
    call is the primitive that the table pairs with the plan's kind, on
    the plan's handle and the two device pointers, and it is given the
    direction exactly when that primitive is one of the two
    complex-to-complex ones. *)
Theorem fft_primitive_arity shape i o w0 plan w1 x_gpu y_gpu x y direction scale w :
  Plan.__init__ shape i o w0 = (inr plan, w1) ->
  arrays w !! x_gpu = Some x ->
  arrays w !! y_gpu = Some y ->
  (_fft x_gpu y_gpu plan direction scale w).1 = inr tt ->
  exists d,
    trace (_fft x_gpu y_gpu plan direction scale w).2 !! length (trace w)
      = Some (Call_exec (Plan.fft_func plan) (Plan.handle plan)
                        (gpuarray.gpudata x) (gpuarray.gpudata y) d)
    /\ In ((i, o), (Plan.fft_type plan, Plan.fft_func plan)) spec_dispatch_table
    /\ (((Plan.fft_func plan = cufft.cufftExecC2C \/ Plan.fft_func plan = cufft.cufftExecZ2Z)
         /\ d = Some direction)
        \/ (Plan.fft_func plan <> cufft.cufftExecC2C
            /\ Plan.fft_func plan <> cufft.cufftExecZ2Z
            /\ d = None)).
Proof.
  intros Hinit Hx Hy.
  rewrite (_fft_outcome _ _ _ _ _ _ _ _ Hx Hy).
  destruct (in_place_test x y plan); [discriminate|].
  destruct (forward_test plan direction); [discriminate|].
  destruct (inverse_test plan direction); [discriminate|].
  intros _. cbn [snd].
  eexists. split.
  { destruct scale as [s|]; unfold rescaled, transformed, primitive_call; cbn [trace].
    - rewrite <- app_assoc. rewrite lookup_app_r by lia.
      rewrite Nat.sub_diag. reflexivity.
    - rewrite lookup_app_r by lia. rewrite Nat.sub_diag. reflexivity. }
  destruct (init_six _ _ _ _ _ _ Hinit) as (sh & h & -> & Hk). cbn in Hk |- *.
  unfold complex_to_complex. cbn [Plan.fft_type].
  destruct i, o; cbn in Hk; try discriminate Hk; injection Hk as <- <-.
  all: cbn; split; [tauto|].
  all: first [left; split; [tauto|reflexivity]
             |right; repeat split; discriminate].
Qed.

(** X7. [_fft] changes no array object other than the one behind
    [y_gpu], and of that one only the device pointer: its element count
    and dtype are kept, no object appears or disappears, and without a
    scale the object is left as it was.  An object that shared the
    allocation of the output keeps pointing at that allocation. *)
Theorem fft_array_frame x_gpu y_gpu plan direction scale w x y :
  arrays w !! x_gpu = Some x ->
  arrays w !! y_gpu = Some y ->
  let w' := (_fft x_gpu y_gpu plan direction scale w).2 in
  dom (arrays w') = dom (arrays w)
  /\ (forall z, z <> y_gpu -> arrays w' !! z = arrays w !! z)
  /\ (exists p, arrays w' !! y_gpu = Some (gpuarray.set_gpudata y p))
  /\ (scale = None -> arrays w' = arrays w).
Proof.
  intros Hx Hy. cbv zeta.
  rewrite (_fft_outcome _ _ _ _ _ _ _ _ Hx Hy).
  assert (Hself : arrays w !! y_gpu
                  = Some (gpuarray.set_gpudata y (gpuarray.gpudata y)))
    by (rewrite Hy; destruct y; reflexivity).
  destruct (in_place_test x y plan); [cbn; eauto 6|].
  destruct (forward_test plan direction); [cbn; eauto 6|].
  destruct (inverse_test plan direction); [cbn; eauto 6|].
  destruct scale as [s|]; cbn; [|eauto 6].
  split; [|split; [|split]].
  - apply dom_insert_lookup_L. rewrite Hy. eauto.
  - intros z Hz. apply lookup_insert_ne. congruence.
  - eexists. apply lookup_insert_eq.
  - discriminate.
Qed.

(** X8. Whether [_fft] raises, and which error, is decided by the two
    device pointers, the plan and the direction alone: the element
    counts and dtypes of the arrays, the scale, device memory and the
    engine state play no part.  In particular arrays whose dtype or size
    does not fit the plan are not refused. *)
Theorem fft_validation_inputs x_gpu y_gpu x_gpu' y_gpu' plan direction
    scale scale' w w' x y x' y' :
  arrays w !! x_gpu = Some x ->
  arrays w !! y_gpu = Some y ->
  arrays w' !! x_gpu' = Some x' ->
  arrays w' !! y_gpu' = Some y' ->
  gpuarray.gpudata x = gpuarray.gpudata x' ->
  gpuarray.gpudata y = gpuarray.gpudata y' ->
  (_fft x_gpu y_gpu plan direction scale w).1
    = (_fft x_gpu' y_gpu' plan direction scale' w').1.
Proof.
  intros Hx Hy Hx' Hy' Ex Ey.
  rewrite (_fft_outcome _ _ _ _ _ _ _ _ Hx Hy).
  rewrite (_fft_outcome _ _ _ _ _ _ _ _ Hx' Hy').
  unfold in_place_test. rewrite Ex, Ey.
  destruct (_ && negb _); [reflexivity|].
  destruct (forward_test plan direction); [reflexivity|].
  destruct (inverse_test plan direction); reflexivity.
Qed.

(** ** The entry points *)

(** X9. [fft] and [ifft] normalise only when the [scale] argument
    equals [True]: with an integer other than 1 -- truthy ones such as 2
    included -- or with [None], they run [_fft] without a scale, so no
    division is called and every array object is left as it was. *)
Theorem entry_points_scale_flag x_gpu y_gpu plan (v : pyobj) w x y :
  arrays w !! x_gpu = Some x ->
  arrays w !! y_gpu = Some y ->
  v <> PyBool true -> v <> PyInt 1 ->
  (fft x_gpu y_gpu plan v w = _fft x_gpu y_gpu plan cufft.CUFFT_FORWARD None w
   /\ ifft x_gpu y_gpu plan v w = _fft x_gpu y_gpu plan cufft.CUFFT_INVERSE None w)
  /\ (arrays (fft x_gpu y_gpu plan v w).2 = arrays w
      /\ arrays (ifft x_gpu y_gpu plan v w).2 = arrays w)
  /\ (Forall (fun c => is_truediv c = false)
             (drop (length (trace w)) (trace (fft x_gpu y_gpu plan v w).2))
      /\ Forall (fun c => is_truediv c = false)
                (drop (length (trace w)) (trace (ifft x_gpu y_gpu plan v w).2))).
Proof.
  intros Hx Hy H1 H2.
  assert (Hv : eq_True v = false).
  { destruct v as [[|]|n|]; cbn; try reflexivity; try congruence.
    apply bool_decide_eq_false_2. congruence. }
  unfold fft, ifft. rewrite Hv.
  split; [split; reflexivity|].
  rewrite !(_fft_outcome _ _ _ _ _ _ _ _ Hx Hy).
  split; split.
  all: destruct (in_place_test x y plan);
       [cbn; rewrite ?drop_all; try constructor; reflexivity|].
  all: match goal with
       | |- context [forward_test ?p ?d] =>
           destruct (forward_test p d);
           [cbn; rewrite ?drop_all; try constructor; reflexivity|];
           destruct (inverse_test p d);
           [cbn; rewrite ?drop_all; try constructor; reflexivity|]
       end.
  all: cbn; try reflexivity.
  all: rewrite drop_app_length; repeat constructor.
Qed.

(** X10. [fft] can never be used with a constructed complex-to-real
    plan, and [ifft] never with a constructed real-to-complex plan:
    whatever the arrays and the [scale] argument, the call raises the
    in-place error (aliased arrays) or the direction error and leaves the
    world as it was. *)
Theorem entry_point_wrong_kind shape i o w0 plan w1 x_gpu y_gpu x y (v : pyobj) w :
  Plan.__init__ shape i o w0 = (inr plan, w1) ->
  arrays w !! x_gpu = Some x ->
  arrays w !! y_gpu = Some y ->
  (Plan.fft_type plan = cufft.CUFFT_C2R \/ Plan.fft_type plan = cufft.CUFFT_Z2D ->
   fft x_gpu y_gpu plan v w =
     (inl (if decide (gpuarray.gpudata x = gpuarray.gpudata y)
           then IllegalInPlaceTransform else ForwardComplexToReal), w))
  /\ (Plan.fft_type plan = cufft.CUFFT_R2C \/ Plan.fft_type plan = cufft.CUFFT_D2Z ->
      ifft x_gpu y_gpu plan v w =
        (inl (if decide (gpuarray.gpudata x = gpuarray.gpudata y)
              then IllegalInPlaceTransform else InverseRealToComplex), w)).
Proof.
  intros Hinit Hx Hy.
  destruct (init_six _ _ _ _ _ _ Hinit) as (sh & h & -> & Hk). cbn in Hk |- *.
  split; intros Hty; unfold fft, ifft.
  all: destruct (eq_True v);
       rewrite ?(deref_live _ _ _ _ Hx), ?(deref_live _ _ _ _ Hy);
       rewrite (_fft_outcome _ _ _ _ _ _ _ _ Hx Hy).
  all: unfold in_place_test, forward_test, inverse_test, complex_to_complex;
       cbn [Plan.fft_type Plan.in_dtype Plan.out_dtype].
  all: destruct i, o; cbn in Hk; try discriminate Hk; injection Hk as E1 E2;
       rewrite <- E1 in Hty |- *; clear E1 E2;
       try (destruct Hty as [Hty|Hty]; discriminate Hty).
  all: destruct (decide (gpuarray.gpudata x = gpuarray.gpudata y)) as [Hp|Hp];
       [rewrite (bool_decide_eq_true_2 _ Hp)
       |rewrite (bool_decide_eq_false_2 _ Hp)]; reflexivity.
Qed.

(** X11. When [fft] is asked to normalise and does not raise, it makes
    exactly two calls: the plan's primitive, then the division of the
    output array by the element count of the input array in the output
    array's dtype; [ifft] does the same with the element count of the
    output array.  The count is not examined: an array of no elements
    gives a division by zero cast to the dtype. *)
Theorem normalised_calls x_gpu y_gpu plan w x y :
  arrays w !! x_gpu = Some x ->
  arrays w !! y_gpu = Some y ->
  ((fft x_gpu y_gpu plan (PyBool true) w).1 = inr tt ->
   trace (fft x_gpu y_gpu plan (PyBool true) w).2 =
     trace w ++ [ primitive_call x y plan cufft.CUFFT_FORWARD;
                  Call_truediv (gpuarray.gpudata y) (gpuarray.dtype y)
                               (gpuarray.size x) ])
  /\ ((ifft x_gpu y_gpu plan (PyBool true) w).1 = inr tt ->
      trace (ifft x_gpu y_gpu plan (PyBool true) w).2 =
        trace w ++ [ primitive_call x y plan cufft.CUFFT_INVERSE;
                     Call_truediv (gpuarray.gpudata y) (gpuarray.dtype y)
                                  (gpuarray.size y) ]).
Proof.
  intros Hx Hy. unfold fft, ifft. cbn [eq_True].
  rewrite (deref_live _ _ _ _ Hx), (deref_live _ _ _ _ Hy).
  rewrite !(_fft_outcome _ _ _ _ _ _ _ _ Hx Hy).
  split.
  all: destruct (in_place_test x y plan); [discriminate|].
  all: match goal with
       | |- context [forward_test ?p ?d] =>
           destruct (forward_test p d); [discriminate|];
           destruct (inverse_test p d); [discriminate|]
       end.
  all: intros _; cbn; rewrite <- app_assoc; reflexivity.
Qed.

(** ** Reusing a plan *)

(** X12. A call of [_fft] does not depend on earlier calls that wrote
    to other array objects: after any [_fft] whose output object is
    neither the input nor the output object of the second call, the
    second call raises or returns as it would have without the first,
    and issues the same calls with the same arguments. *)
Theorem fft_reuse x1_gpu y1_gpu x2_gpu y2_gpu plan1 plan d1 d2 s1 s2 w x1 y1 x2 y2 :
  arrays w !! x1_gpu = Some x1 ->
  arrays w !! y1_gpu = Some y1 ->
  arrays w !! x2_gpu = Some x2 ->
  arrays w !! y2_gpu = Some y2 ->
  x2_gpu <> y1_gpu ->
  y2_gpu <> y1_gpu ->
  let w1 := (_fft x1_gpu y1_gpu plan1 d1 s1 w).2 in
  (_fft x2_gpu y2_gpu plan d2 s2 w1).1 = (_fft x2_gpu y2_gpu plan d2 s2 w).1
  /\ trace (_fft x2_gpu y2_gpu plan d2 s2 w1).2
       = trace w1 ++ drop (length (trace w))
                          (trace (_fft x2_gpu y2_gpu plan d2 s2 w).2).
Proof.
  intros Hx1 Hy1 Hx2 Hy2 Nx Ny w1.
  destruct (fft_array_frame x1_gpu y1_gpu plan1 d1 s1 w x1 y1 Hx1 Hy1)
    as (_ & Hframe & _).
  fold w1 in Hframe.
  assert (Hx2' : arrays w1 !! x2_gpu = Some x2) by (rewrite Hframe; assumption).
  assert (Hy2' : arrays w1 !! y2_gpu = Some y2) by (rewrite Hframe; assumption).
  rewrite (_fft_outcome _ _ _ _ _ _ _ _ Hx2' Hy2').
  rewrite (_fft_outcome _ _ _ _ _ _ _ _ Hx2 Hy2).
  destruct (in_place_test x2 y2 plan);
    [cbn; rewrite drop_all, app_nil_r; split; reflexivity|].
  destruct (forward_test plan d2);
    [cbn; rewrite drop_all, app_nil_r; split; reflexivity|].
  destruct (inverse_test plan d2);
    [cbn; rewrite drop_all, app_nil_r; split; reflexivity|].
  split; [reflexivity|].
  destruct s2 as [s|]; cbn; rewrite <- ?app_assoc, drop_app_length; reflexivity.
Qed.

End Further.

(** * The further properties on the concrete layer and engine *)

Section FurtherInstances.

#[local] Existing Instance Concrete.layer.
#[local] Existing Instance Concrete.engine.

Lemma init_rank_dispatch_witness :
  (Plan.__init__ (Sequence [8; 8]) np.float64 np.complex128 Concrete.start).1
    = inr (Plan.mk [8; 8] np.float64 np.complex128
                   cufft.CUFFT_D2Z cufft.cufftExecD2Z 1)
  /\ (Plan.__init__ (Sequence [8; -2; 8]) np.float64 np.complex128 Concrete.start).1
       = inl cufftError.
Proof.
  pose proof (init_rank_dispatch np.float64 np.complex128 cufft.CUFFT_D2Z
                cufft.cufftExecD2Z Concrete.start eq_refl) as (_ & H2 & H3).
  split.
  - rewrite (H2 8 8). reflexivity.
  - rewrite (H3 8 (-2) 8). reflexivity.
Defined.

Lemma init_plan_invariant_witness :
  (1 <= length (Plan.shape Concrete.plan_r2c) <= 3)%nat
  /\ Plan.shape Concrete.plan_r2c = self_shape (Scalar 4)
  /\ Plan.in_dtype Concrete.plan_r2c = np.float32
  /\ Plan.out_dtype Concrete.plan_r2c = np.complex64
  /\ In ((np.float32, np.complex64),
         (Plan.fft_type Concrete.plan_r2c, Plan.fft_func Concrete.plan_r2c))
        spec_dispatch_table.
Proof.
  exact (init_plan_invariant (Scalar 4) np.float32 np.complex64 Concrete.start
           Concrete.plan_r2c (Concrete.planned cufft.CUFFT_R2C 4) eq_refl).
Defined.

Lemma init_del_pairing_witness :
  exists c,
    is_creation c = true
    /\ trace (Concrete.planned cufft.CUFFT_R2C 4) = trace Concrete.start ++ [c]
    /\ trace (Plan.__del__ Concrete.plan_r2c (Concrete.planned cufft.CUFFT_R2C 4)).2
         = trace Concrete.start ++ [c; Call_cufftDestroy 1].
Proof.
  destruct (init_del_pairing (Scalar 4) np.float32 np.complex64 Concrete.start
              Concrete.plan_r2c (Concrete.planned cufft.CUFFT_R2C 4) eq_refl)
    as (c & Hc & Ht & Hd).
  exists c. split; [exact Hc|]. split; [exact Ht|].
  rewrite Hd. reflexivity.
Defined.

Lemma fft_succeeds_iff_witness :
  (_fft 1 2 Concrete.plan_r2c cufft.CUFFT_FORWARD (Some 4)
        (Concrete.planned cufft.CUFFT_R2C 4)).1 = inr tt.
Proof.
  apply (proj2 (fft_succeeds_iff (Scalar 4) np.float32 np.complex64 Concrete.start
                  Concrete.plan_r2c (Concrete.planned cufft.CUFFT_R2C 4) 1 2
                  (gpuarray.mkGPUArray 100 4 np.float32)
                  (gpuarray.mkGPUArray 200 3 np.complex64)
                  cufft.CUFFT_FORWARD (Some 4)
                  (Concrete.planned cufft.CUFFT_R2C 4) eq_refl eq_refl eq_refl)).
  right. split; [cbn; lia|]. left. split; [left|]; reflexivity.
Defined.

Lemma fft_primitive_arity_witness :
  exists d,
    trace (_fft 2 3 Concrete.plan_c2c cufft.CUFFT_INVERSE None
                (Concrete.planned cufft.CUFFT_C2C 3)).2 !! 1%nat
      = Some (Call_exec cufft.cufftExecC2C 1 200 200 d)
    /\ d = Some cufft.CUFFT_INVERSE.
Proof.
  destruct (fft_primitive_arity (Scalar 3) np.complex64 np.complex64 Concrete.start
              Concrete.plan_c2c (Concrete.planned cufft.CUFFT_C2C 3) 2 3
              (gpuarray.mkGPUArray 200 3 np.complex64)
              (gpuarray.mkGPUArray 200 3 np.complex64)
              cufft.CUFFT_INVERSE None
              (Concrete.planned cufft.CUFFT_C2C 3) eq_refl eq_refl eq_refl eq_refl)
    as (d & Hd & _ & [[_ E]|(N & _ & _)]).
  - exists d. split; [exact Hd|exact E].
  - exfalso. apply N. reflexivity.
Defined.

Lemma fft_array_frame_witness :
  arrays Concrete.scaled_run.2 !! 3%positive
    = Some (gpuarray.mkGPUArray 200 3 np.complex64).
Proof.
  refine (eq_trans
            (proj1 (proj2 (fft_array_frame 1 2 Concrete.plan_r2c cufft.CUFFT_FORWARD
                             (Some 4) (Concrete.planned cufft.CUFFT_R2C 4)
                             (gpuarray.mkGPUArray 100 4 np.float32)
                             (gpuarray.mkGPUArray 200 3 np.complex64)
                             eq_refl eq_refl)) 3%positive _) _);
    [discriminate|reflexivity].
Defined.

Lemma fft_validation_inputs_witness :
  (_fft 2 1 Concrete.plan_c2r cufft.CUFFT_INVERSE None
        (Concrete.planned cufft.CUFFT_C2R 4)).1
    = (_fft 5 1 Concrete.plan_c2r cufft.CUFFT_INVERSE (Some 7)
            (Concrete.planned cufft.CUFFT_C2R 4)).1.
Proof.
  exact (fft_validation_inputs 2 1 5 1 Concrete.plan_c2r cufft.CUFFT_INVERSE
           None (Some 7)
           (Concrete.planned cufft.CUFFT_C2R 4) (Concrete.planned cufft.CUFFT_C2R 4)
           (gpuarray.mkGPUArray 200 3 np.complex64)
           (gpuarray.mkGPUArray 100 4 np.float32)
           (gpuarray.mkGPUArray 200 4 np.float32)
           (gpuarray.mkGPUArray 100 4 np.float32)
           eq_refl eq_refl eq_refl eq_refl eq_refl eq_refl).
Defined.

Lemma entry_points_scale_flag_witness :
  fft 1 2 Concrete.plan_r2c (PyInt 2) (Concrete.planned cufft.CUFFT_R2C 4)
    = _fft 1 2 Concrete.plan_r2c cufft.CUFFT_FORWARD None
           (Concrete.planned cufft.CUFFT_R2C 4).
Proof.
  refine (proj1 (proj1 (entry_points_scale_flag 1 2 Concrete.plan_r2c (PyInt 2)
                          (Concrete.planned cufft.CUFFT_R2C 4)
                          (gpuarray.mkGPUArray 100 4 np.float32)
                          (gpuarray.mkGPUArray 200 3 np.complex64)
                          eq_refl eq_refl _ _))); discriminate.
Defined.

Lemma entry_point_wrong_kind_witness :
  fft 2 1 Concrete.plan_c2r (PyBool true) (Concrete.planned cufft.CUFFT_C2R 4)
    = (inl ForwardComplexToReal, Concrete.planned cufft.CUFFT_C2R 4).
Proof.
  refine (proj1 (entry_point_wrong_kind (Scalar 4) np.complex64 np.float32
                   Concrete.start Concrete.plan_c2r
                   (Concrete.planned cufft.CUFFT_C2R 4) 2 1
                   (gpuarray.mkGPUArray 200 3 np.complex64)
                   (gpuarray.mkGPUArray 100 4 np.float32)
                   (PyBool true) (Concrete.planned cufft.CUFFT_C2R 4)
                   eq_refl eq_refl eq_refl) _).
  left. reflexivity.
Defined.

Lemma normalised_calls_witness :
  trace (fft 6 2 Concrete.plan_r2c (PyBool true) Concrete.with_empty_input).2
    = [ Call_cufftPlan1d 4 cufft.CUFFT_R2C 1;
        Call_exec cufft.cufftExecR2C 1 50 200 None;
        Call_truediv 200 np.complex64 0 ].
Proof.
  exact (proj1 (normalised_calls 6 2 Concrete.plan_r2c Concrete.with_empty_input
                  (gpuarray.mkGPUArray 50 0 np.float32)
                  (gpuarray.mkGPUArray 200 3 np.complex64)
                  eq_refl eq_refl) eq_refl).
Defined.

Lemma fft_reuse_witness :
  (_fft 2 4 Concrete.plan_c2c cufft.CUFFT_INVERSE None
        (_fft 4 3 Concrete.plan_c2c cufft.CUFFT_FORWARD (Some 3)
              (Concrete.planned cufft.CUFFT_C2C 3)).2).1
    = inr tt.
Proof.
  rewrite (proj1 (fft_reuse 4 3 2 4 Concrete.plan_c2c Concrete.plan_c2c
                    cufft.CUFFT_FORWARD cufft.CUFFT_INVERSE (Some 3) None
                    (Concrete.planned cufft.CUFFT_C2C 3)
                    (gpuarray.mkGPUArray 300 3 np.complex64)
                    (gpuarray.mkGPUArray 200 3 np.complex64)
                    (gpuarray.mkGPUArray 200 3 np.complex64)
                    (gpuarray.mkGPUArray 300 3 np.complex64)
                    eq_refl eq_refl eq_refl eq_refl
                    ltac:(discriminate) ltac:(discriminate))).
  reflexivity.
Defined.

End FurtherInstances.
